(** * kubeflex, package kubeconfig: remapping, merging and waiting for
      control-plane credentials

    A shallow embedding of [pkg/kubeconfig] (functions [LoadAndMerge],
    [LoadAndMergeNoWrite], [loadControlPlaneKubeconfig], [LoadKubeconfig],
    [WriteKubeconfig], [WatchForSecretCreation], [adjustConfigKeys] and
    [renameKey]) and the properties of it that the design document states.

    Go maps are finite maps ([gmap]) with string keys.  The maps of a
    [Config] are always allocated ([clientcmdapi.NewConfig] allocates them
    and the decoder keeps them), so a nil map is not part of the model.
    In-place mutation of a map or of the [Config] behind a pointer is
    written as explicit state passing: a function returns the updated
    value. *)

From stdpp Require Import gmap strings list fin_maps.

(** ** clientcmdapi: the credential document *)

(** The code under study never looks inside a cluster or an auth-identity
    record; it only moves them between keys.  The fields kept here are the
    ones the design document names. *)
Record Cluster := mkCluster {
  Server : string;
  CertificateAuthorityData : list Byte.byte
}.

Record AuthInfo := mkAuthInfo {
  ClientCertificateData : list Byte.byte;
  ClientKeyData : list Byte.byte;
  Token : string
}.

(** [clientcmdapi.Context]: the fields [Cluster], [AuthInfo] and [Namespace]
    of the Go struct (prefixed, since the record types use the bare names). *)
Record Context := mkContext {
  Context_Cluster : string;
  Context_AuthInfo : string;
  Context_Namespace : string
}.

(** [clientcmdapi.Config]. *)
Record Config := mkConfig {
  Clusters : gmap string Cluster;
  AuthInfos : gmap string AuthInfo;
  Contexts : gmap string Context;
  CurrentContext : string
}.

(** [clientcmdapi.NewConfig()]: three allocated, empty maps. *)
Definition NewConfig : Config :=
  {| Clusters := ∅; AuthInfos := ∅; Contexts := ∅; CurrentContext := "" |}.

(** Field assignments [config.F = v], as functional updates. *)
Definition set_Clusters (m : gmap string Cluster) (c : Config) : Config :=
  {| Clusters := m; AuthInfos := AuthInfos c;
     Contexts := Contexts c; CurrentContext := CurrentContext c |}.

Definition set_AuthInfos (m : gmap string AuthInfo) (c : Config) : Config :=
  {| Clusters := Clusters c; AuthInfos := m;
     Contexts := Contexts c; CurrentContext := CurrentContext c |}.

Definition set_Contexts (m : gmap string Context) (c : Config) : Config :=
  {| Clusters := Clusters c; AuthInfos := AuthInfos c;
     Contexts := m; CurrentContext := CurrentContext c |}.

Definition set_CurrentContext (s : string) (c : Config) : Config :=
  {| Clusters := Clusters c; AuthInfos := AuthInfos c;
     Contexts := Contexts c; CurrentContext := s |}.

(** ** Declarations of the repository that the package imports

    [api/v1alpha1], [pkg/certs] and [pkg/util] are used by the package but
    are not part of the files studied here; they are taken as parameters. *)

(** [tenancyv1alpha1]: the two control-plane type constants that
    [adjustConfigKeys] switches on.  Go rejects a switch with two equal
    constant cases, so the constants differ. *)
Class Tenancy := {
  ControlPlaneTypeOCM : string;
  ControlPlaneTypeVCluster : string;
  ControlPlaneType_distinct : ControlPlaneTypeOCM ≠ ControlPlaneTypeVCluster
}.

(** [certs]: the name generators. *)
Class Certs := {
  GenerateClusterName : string → string;
  GenerateAuthInfoAdminName : string → string;
  GenerateContextName : string → string
}.

(** [util]: where the credential bundle of a control plane is stored. *)
Class Util := {
  GenerateNamespaceFromControlPlaneName : string → string;
  GetKubeconfSecretNameByControlPlaneType : string → string;
  GetKubeconfSecretKeyNameByControlPlaneType : string → string
}.

(** ** renameKey *)

(** The dynamic value behind the [interface{}] argument of [renameKey]:
    one of the three map types of the type switch, or anything else. *)
Inductive MapValue :=
  | ClusterMap (v : gmap string Cluster)
  | AuthInfoMap (v : gmap string AuthInfo)
  | ContextMap (v : gmap string Context)
  | OtherValue.

(** The body shared by the three cases of the type switch:
    [if x, ok := v[oldKey]; ok { delete(v, oldKey); v[newKey] = x }]. *)
Definition renameEntry {V} (v : gmap string V) (oldKey newKey : string)
  : gmap string V :=
  match v !! oldKey with
  | Some x => <[newKey := x]> (delete oldKey v)
  | None => v
  end.

Definition renameKey (m : MapValue) (oldKey newKey : string) : MapValue :=
  match m with
  | ClusterMap v => ClusterMap (renameEntry v oldKey newKey)
  | AuthInfoMap v => AuthInfoMap (renameEntry v oldKey newKey)
  | ContextMap v => ContextMap (renameEntry v oldKey newKey)
  | OtherValue => OtherValue
  end.

(** The map that a field of the [Config] refers to after [renameKey] has
    updated it in place. *)
Definition asClusters (m : MapValue) (old : gmap string Cluster) :=
  match m with ClusterMap v => v | _ => old end.

Definition asAuthInfos (m : MapValue) (old : gmap string AuthInfo) :=
  match m with AuthInfoMap v => v | _ => old end.

Definition asContexts (m : MapValue) (old : gmap string Context) :=
  match m with ContextMap v => v | _ => old end.

(** Reading a map behind an [interface{}] value: [m[k]] and [len(m)]. *)
Inductive Entry :=
  | ClusterEntry (c : Cluster)
  | AuthInfoEntry (a : AuthInfo)
  | ContextEntry (x : Context).

Definition entryAt (m : MapValue) (k : string) : option Entry :=
  match m with
  | ClusterMap v => ClusterEntry <$> v !! k
  | AuthInfoMap v => AuthInfoEntry <$> v !! k
  | ContextMap v => ContextEntry <$> v !! k
  | OtherValue => None
  end.

Definition len (m : MapValue) : nat :=
  match m with
  | ClusterMap v => size v
  | AuthInfoMap v => size v
  | ContextMap v => size v
  | OtherValue => 0
  end.

(** ** adjustConfigKeys *)

Section KeyRemapper.
Context `{Tenancy, Certs}.

(** [&clientcmdapi.Context{Cluster: ..., AuthInfo: ...}]: the other
    fields have their zero value. *)
Definition generatedContext (cpName : string) : Context :=
  {| Context_Cluster := GenerateClusterName cpName;
     Context_AuthInfo := GenerateAuthInfoAdminName cpName;
     Context_Namespace := "" |}.

(** One case of the switch: the three renames, the assignment of
    [CurrentContext] and the assignment of the context entry.  The two
    cases differ only in the generic keys. *)
Definition adjustCase (config : Config) (cpName : string)
    (clusterKey authInfoKey contextKey : string) : Config :=
  let config :=
    set_Clusters (asClusters
      (renameKey (ClusterMap (Clusters config)) clusterKey
         (GenerateClusterName cpName)) (Clusters config)) config in
  let config :=
    set_AuthInfos (asAuthInfos
      (renameKey (AuthInfoMap (AuthInfos config)) authInfoKey
         (GenerateAuthInfoAdminName cpName)) (AuthInfos config)) config in
  let config :=
    set_Contexts (asContexts
      (renameKey (ContextMap (Contexts config)) contextKey
         (GenerateContextName cpName)) (Contexts config)) config in
  let config := set_CurrentContext (GenerateContextName cpName) config in
  set_Contexts
    (<[GenerateContextName cpName := generatedContext cpName]>
       (Contexts config)) config.

Definition adjustConfigKeys (config : Config) (cpName controlPlaneType : string)
    : Config :=
  if decide (controlPlaneType = ControlPlaneTypeOCM) then
    adjustCase config cpName
      "multicluster-controlplane" "user" "multicluster-controlplane"
  else if decide (controlPlaneType = ControlPlaneTypeVCluster) then
    adjustCase config cpName "my-vcluster" "my-vcluster" "my-vcluster"
  else
    config.

(** The generic keys that the switch uses for a control-plane type. *)
Definition knownType (controlPlaneType : string) : Prop :=
  controlPlaneType = ControlPlaneTypeOCM ∨
  controlPlaneType = ControlPlaneTypeVCluster.

Definition genericClusterKey (controlPlaneType : string) : string :=
  if decide (controlPlaneType = ControlPlaneTypeOCM)
  then "multicluster-controlplane" else "my-vcluster".

Definition genericAuthInfoKey (controlPlaneType : string) : string :=
  if decide (controlPlaneType = ControlPlaneTypeOCM)
  then "user" else "my-vcluster".

Definition genericContextKey (controlPlaneType : string) : string :=
  if decide (controlPlaneType = ControlPlaneTypeOCM)
  then "multicluster-controlplane" else "my-vcluster".
End KeyRemapper.

(** ** merge *)

(** Go's [error] values, by the kinds the design document distinguishes. *)
Inductive error :=
  | NotFoundError
  | KeyMissingError
  | DecodeError
  | SubscriptionError
  | PersistError.

Module CredentialMerger.

(** [for k, v := range src { dst[k] = v }] *)
Definition insertAll {V} (src dst : gmap string V) : gmap string V :=
  map_fold (λ k v acc, <[k := v]> acc) dst src.

(** Modelled from the spec: [merge], the routine of package kubeconfig that
    [LoadAndMerge] and [LoadAndMergeNoWrite] call, is defined outside the
    files studied here.  Every entry of each of the three mappings of the
    source is inserted into the same mapping of the destination, and the
    destination's current context becomes the source's.  The result is the
    destination after the in-place update, with the returned error. *)
Definition merge (existing new : Config) : Config * option error :=
  ({| Clusters := insertAll (Clusters new) (Clusters existing);
      AuthInfos := insertAll (AuthInfos new) (AuthInfos existing);
      Contexts := insertAll (Contexts new) (Contexts existing);
      CurrentContext := CurrentContext new |}, None).

End CredentialMerger.

(** ** The secret store, the decoder and the kubeconfig file *)

Inductive result (A : Type) :=
  | Ok (a : A)
  | Err (e : error).
Arguments Ok {A} a.
Arguments Err {A} e.

(** [v1.Secret], with the two fields the package reads. *)
Record Secret := mkSecret {
  Name : string;
  Data : gmap string (list Byte.byte)
}.

(** [kubernetes.Clientset], as far as the package uses it:
    [client.CoreV1().Secrets(namespace).Get(ctx, name, ...)]. *)
Record Clientset := mkClientset {
  Secrets_Get : string → string → result Secret
}.

(** [k8s.io/client-go/tools/clientcmd]: the decoder and the file access.
    [FS] is the state of the file system; [WriteToFile] returns the error
    (if any) and the file system after the call. *)
Class Clientcmd := {
  FS : Type;
  Load : list Byte.byte → result Config;
  GetDefaultFilename : string;
  LoadFromFile : string → FS → result Config;
  WriteToFile : Config → string → FS → option error * FS
}.

(** The calls that leave the package, in the order they are made. *)
Inductive Event :=
  | EvGetSecret (namespace name : string)
  | EvLoad (data : list Byte.byte)
  | EvLoadFromFile (filename : string)
  | EvMerge
  | EvWriteToFile (filename : string).

Section Effects.
Context `{Clientcmd}.

Record World := mkWorld {
  files : FS;
  calls : list Event
}.

(** Computations that may fail and that act on the world. *)
Definition M (A : Type) : Type := World → result A * World.

Definition ret {A} (a : A) : M A := λ w, (Ok a, w).

Definition bind {A B} (m : M A) (k : A → M B) : M B :=
  λ w, match m w with
       | (Ok a, w') => k a w'
       | (Err e, w') => (Err e, w')
       end.

Definition logCall (ev : Event) (w : World) : World :=
  {| files := files w; calls := calls w ++ [ev] |}.

Definition getSecret (client : Clientset) (namespace name : string) : M Secret :=
  λ w, (Secrets_Get client namespace name, logCall (EvGetSecret namespace name) w).

Definition load (data : list Byte.byte) : M Config :=
  λ w, (Load data, logCall (EvLoad data) w).

Definition loadFromFile (filename : string) : M Config :=
  λ w, (LoadFromFile filename (files w), logCall (EvLoadFromFile filename) w).

Definition writeToFile (config : Config) (filename : string) : M unit :=
  λ w, let '(err, fs) := WriteToFile config filename (files w) in
       (match err with Some e => Err e | None => Ok tt end,
        {| files := fs; calls := calls w ++ [EvWriteToFile filename] |}).

End Effects.

Declare Scope kubeconfig_scope.
Delimit Scope kubeconfig_scope with kubeconfig.
Notation "'let*' x ':=' m 'in' k" := (bind m (λ x, k))
  (at level 10, x name, m at level 100, k at level 200,
   format "'let*'  x  :=  m  'in'  '/' k") : kubeconfig_scope.

(** ** LoadAndMerge *)

Section LoadAndMerge.
Context `{Tenancy, Certs, Util, Clientcmd}.

(** The merge routine, with its effect on its first argument and its
    error.  [CredentialMerger.merge] is the one the design document
    describes. *)
Variable merge : Config → Config → Config * option error.

Local Open Scope kubeconfig_scope.

(** [ks.Data[key]]: indexing a Go map at an absent key gives the zero
    value, here the nil byte slice. *)
Definition loadControlPlaneKubeconfig (client : Clientset)
    (name controlPlaneType : string) : M Config :=
  let namespace := GenerateNamespaceFromControlPlaneName name in
  let* ks := getSecret client namespace
    (GetKubeconfSecretNameByControlPlaneType controlPlaneType) in
  let key := GetKubeconfSecretKeyNameByControlPlaneType controlPlaneType in
  load (default [] (Data ks !! key)).

Definition LoadKubeconfig : M Config :=
  let kubeconfig := GetDefaultFilename in
  loadFromFile kubeconfig.

Definition WriteKubeconfig (config : Config) : M unit :=
  let kubeconfig := GetDefaultFilename in
  writeToFile config kubeconfig.

Definition mergeM (existing new : Config) : M Config :=
  λ w, let '(existing', err) := merge existing new in
       (match err with Some e => Err e | None => Ok existing' end,
        logCall EvMerge w).

Definition LoadAndMerge (client : Clientset) (name controlPlaneType : string)
    : M unit :=
  let* cpKonfig := loadControlPlaneKubeconfig client name controlPlaneType in
  let cpKonfig := adjustConfigKeys cpKonfig name controlPlaneType in
  let* konfig := LoadKubeconfig in
  let* konfig := mergeM konfig cpKonfig in
  WriteKubeconfig konfig.

(** [LoadAndMergeNoWrite] works on the caller's [konfig]; the result is
    that document after the call, with the returned error. *)
Definition LoadAndMergeNoWrite (client : Clientset)
    (name controlPlaneType : string) (konfig : Config) (w : World)
    : (Config * option error) * World :=
  match loadControlPlaneKubeconfig client name controlPlaneType w with
  | (Err e, w') => ((konfig, Some e), w')
  | (Ok cpKonfig, w') =>
      let cpKonfig := adjustConfigKeys cpKonfig name controlPlaneType in
      (merge konfig cpKonfig, logCall EvMerge w')
  end.

End LoadAndMerge.

(** ** WatchForSecretCreation *)

Module ReadinessWaiter.

(** The channel [stopCh]: nothing is ever sent on it, it is only closed. *)
Inductive chan := Open | Closed.

(** [close(ch)].  Closing a closed channel is a run-time panic in Go:
    [None]. *)
Definition close (ch : chan) : option chan :=
  match ch with
  | Open => Some Closed
  | Closed => None
  end.

(** The [AddFunc] handler registered with the informer. *)
Definition AddFunc (secretName : string) (secret : Secret) (stopCh : chan)
    : option chan :=
  if decide (Name secret = secretName) then close stopCh else Some stopCh.

(** The informer calls the handler once for every creation event, one event
    after the other. *)
Fixpoint deliver (secretName : string) (events : list Secret) (stopCh : chan)
    : option chan :=
  match events with
  | [] => Some stopCh
  | secret :: events =>
      match AddFunc secretName secret stopCh with
      | Some stopCh => deliver secretName events stopCh
      | None => None
      end
  end.

(** [<-stopCh] on a channel that carries no values: the receive completes
    once the channel is closed and blocks as long as it is open. *)
Definition received (stopCh : chan) : bool :=
  match stopCh with Closed => true | Open => false end.

(** [WatchForSecretCreation] after the informer has handled [events]:
    [Some true] when the function has returned, [Some false] when it is
    still blocked, [None] when the process has panicked. *)
Definition WatchForSecretCreation (secretName : string) (events : list Secret)
    : option bool :=
  let stopCh := Open in
  received <$> deliver secretName events stopCh.

End ReadinessWaiter.

(** ** A sample environment

    Instances of the parameters above on which the functions can be run. *)

Module Sample.

#[export] Instance tenancy : Tenancy :=
  {| ControlPlaneTypeOCM := "ocm"; ControlPlaneTypeVCluster := "vcluster";
     ControlPlaneType_distinct := ltac:(discriminate) |}.

#[export] Instance certs : Certs :=
  {| GenerateClusterName := λ cp, cp +:+ "-cluster";
     GenerateAuthInfoAdminName := λ cp, cp +:+ "-admin";
     GenerateContextName := λ cp, cp |}.

#[export] Instance util : Util :=
  {| GenerateNamespaceFromControlPlaneName := λ cp, cp +:+ "-system";
     GetKubeconfSecretNameByControlPlaneType := λ _, "admin-kubeconfig";
     GetKubeconfSecretKeyNameByControlPlaneType := λ _, "kubeconfig" |}.

(** A file system with the one file the package reads and writes: absent,
    or holding a document.  The decoder follows client-go on the empty
    payload (the default document is returned instead of an error) and
    rejects everything else. *)
#[export] Instance clientcmd : Clientcmd :=
  {| FS := option Config;
     Load := λ data,
       match data with [] => Ok NewConfig | _ => Err DecodeError end;
     GetDefaultFilename := "~/.kube/config";
     LoadFromFile := λ _ fs,
       match fs with Some c => Ok c | None => Err NotFoundError end;
     WriteToFile := λ c _ _, (None, Some c) |}.

Definition C : Cluster :=
  {| Server := "https://cp1.localtest.me:9443"; CertificateAuthorityData := [] |}.

Definition A : AuthInfo :=
  {| ClientCertificateData := []; ClientKeyData := []; Token := "t0" |}.

Definition vclusterDoc : Config :=
  {| Clusters := {["my-vcluster" := C]};
     AuthInfos := {["my-vcluster" := A]};
     Contexts := {["my-vcluster" :=
       {| Context_Cluster := "my-vcluster"; Context_AuthInfo := "my-vcluster";
          Context_Namespace := "" |}]};
     CurrentContext := "my-vcluster" |}.

(** A store without any secret, and a store whose secret for ["cp1"] has
    no payload under the expected key. *)
Definition emptyStore : Clientset :=
  {| Secrets_Get := λ _ _, Err NotFoundError |}.

Definition keylessSecret : Secret :=
  {| Name := "admin-kubeconfig"; Data := {["token" := []]} |}.

Definition keylessStore : Clientset :=
  {| Secrets_Get := λ namespace name,
       if decide (namespace = "cp1-system" ∧ name = "admin-kubeconfig")
       then Ok keylessSecret
       else Err NotFoundError |}.

Definition world0 : World := {| files := None; calls := [] |}.

Definition named (name : string) : Secret := {| Name := name; Data := ∅ |}.

End Sample.

(** ** The vcluster reconciler (pkg/reconcilers/vcluster) *)

Module VClusterReconciler.

Definition ServiceName : string := "vcluster".
Definition ServicePort : Z := 443.

(** [shared.BaseReconciler] and the chart step: the methods that
    [Reconcile] calls are defined outside the files studied here and are
    parameters.  [Cl] is the state they act on (the hosting cluster and the
    [ControlPlane] object behind the pointer [hcp]); a step returns its
    error, if any, and the state it leaves; a status update returns the
    pair that [Reconcile] returns. *)
Class Steps := {
  Cl : Type;
  ControlPlane : Type;
  GoError : Type;
  CtrlResult : Type;
  ReconcileNamespace : ControlPlane → Cl → option GoError * Cl;
  ReconcileChart : ControlPlane → Cl → option GoError * Cl;
  ReconcileAPIServerIngress :
    ControlPlane → string → Z → Cl → option GoError * Cl;
  UpdateStatusForSyncingError :
    ControlPlane → GoError → Cl → (CtrlResult * option GoError) * Cl;
  UpdateStatusForSyncingSuccess :
    ControlPlane → Cl → (CtrlResult * option GoError) * Cl
}.

Section Reconcile.
Context `{Steps}.

(** The method calls of one [Reconcile], in the order they are made. *)
Inductive Call :=
  | CallReconcileNamespace
  | CallReconcileChart
  | CallReconcileAPIServerIngress (svcName : string) (svcPort : Z)
  | CallUpdateStatusForSyncingError (err : GoError)
  | CallUpdateStatusForSyncingSuccess.

Record RWorld := mkRWorld {
  cluster : Cl;
  made : list Call
}.

(** A step, with its call recorded. *)
Definition step (call : Call) (f : Cl → option GoError * Cl) (w : RWorld)
    : option GoError * RWorld :=
  let '(err, cl) := f (cluster w) in
  (err, {| cluster := cl; made := made w ++ [call] |}).

(** A status update, with its call recorded. *)
Definition update (call : Call)
    (f : Cl → (CtrlResult * option GoError) * Cl) (w : RWorld)
    : (CtrlResult * option GoError) * RWorld :=
  let '(res, cl) := f (cluster w) in
  (res, {| cluster := cl; made := made w ++ [call] |}).

Definition Reconcile (hcp : ControlPlane) (w : RWorld)
    : (CtrlResult * option GoError) * RWorld :=
  match step CallReconcileNamespace (ReconcileNamespace hcp) w with
  | (Some err, w) =>
      update (CallUpdateStatusForSyncingError err)
        (UpdateStatusForSyncingError hcp err) w
  | (None, w) =>
  match step CallReconcileChart (ReconcileChart hcp) w with
  | (Some err, w) =>
      update (CallUpdateStatusForSyncingError err)
        (UpdateStatusForSyncingError hcp err) w
  | (None, w) =>
  match step (CallReconcileAPIServerIngress ServiceName ServicePort)
          (ReconcileAPIServerIngress hcp ServiceName ServicePort) w with
  | (Some err, w) =>
      update (CallUpdateStatusForSyncingError err)
        (UpdateStatusForSyncingError hcp err) w
  | (None, w) =>
      update CallUpdateStatusForSyncingSuccess
        (UpdateStatusForSyncingSuccess hcp) w
  end end end.

(** The three steps of a complete run. *)
Definition allSteps : list Call :=
  [CallReconcileNamespace; CallReconcileChart;
   CallReconcileAPIServerIngress ServiceName ServicePort].

End Reconcile.

End VClusterReconciler.

Module SampleReconciler.
Import VClusterReconciler.

(** A sample cluster: the list of the objects created so far.  The
    namespace step fails for a control plane without a name, the ingress
    step for a port that is not 443. *)
#[export] Instance sampleSteps : Steps :=
  {| Cl := list string;
     ControlPlane := string;
     GoError := string;
     CtrlResult := bool;
     ReconcileNamespace := λ hcp cl,
       if decide (hcp = "") then (Some "no name", cl)
       else (None, cl ++ [hcp +:+ "-system"]);
     ReconcileChart := λ hcp cl, (None, cl ++ ["chart"]);
     ReconcileAPIServerIngress := λ hcp svc port cl,
       if decide (port = 443%Z) then (None, cl ++ ["ingress:" +:+ svc])
       else (Some "bad port", cl);
     UpdateStatusForSyncingError := λ hcp err cl,
       ((true, Some err), cl ++ ["status:" +:+ err]);
     UpdateStatusForSyncingSuccess := λ hcp cl,
       ((false, None), cl ++ ["status:ready"]) |}.

Definition rworld0 : RWorld := {| cluster := []; made := [] |}.

End SampleReconciler.

(** A secret with a payload under the expected key, and its store. *)
Module SampleBundle.

Definition payloadBytes : list Byte.byte := [Byte.x61].

Definition keyedSecret : Secret :=
  {| Name := "admin-kubeconfig"; Data := {["kubeconfig" := payloadBytes]} |}.

Definition keyedStore : Clientset :=
  {| Secrets_Get := λ _ _, Ok keyedSecret |}.

(** A store whose secret has no payload under the expected key (the
    sample decoder accepts the empty payload), on a file system that holds
    a document. *)
Definition readyStore : Clientset :=
  {| Secrets_Get := λ _ _, Ok Sample.keylessSecret |}.

Definition worldWithFile : World :=
  @mkWorld Sample.clientcmd (Some NewConfig) [].

End SampleBundle.

(** * Properties *)

(** ** renameKey *)

Section RenameEntry.
Context {V : Type}.
Implicit Types (v : gmap string V) (oldKey newKey k : string).

Lemma renameEntry_present v oldKey newKey x :
  v !! oldKey = Some x →
  renameEntry v oldKey newKey = <[newKey := x]> (delete oldKey v).
Proof. intros Hx. unfold renameEntry. by rewrite Hx. Qed.

Lemma renameEntry_absent v oldKey newKey :
  v !! oldKey = None → renameEntry v oldKey newKey = v.
Proof. intros Hx. unfold renameEntry. by rewrite Hx. Qed.

Lemma lookup_renameEntry v oldKey newKey k :
  renameEntry v oldKey newKey !! k =
    match v !! oldKey with
    | Some x => if decide (newKey = k) then Some x
                else if decide (oldKey = k) then None else v !! k
    | None => v !! k
    end.
Proof.
  unfold renameEntry. destruct (v !! oldKey) as [x|] eqn:Hx; [|done].
  rewrite lookup_insert. case_decide; [done|].
  rewrite lookup_delete. by case_decide.
Qed.

Lemma renameEntry_same v key : renameEntry v key key = v.
Proof.
  apply map_eq. intros k. rewrite lookup_renameEntry.
  destruct (v !! key) as [x|] eqn:Hx; [|done].
  case_decide; [by subst|done].
Qed.

Lemma renameEntry_old_gone v oldKey newKey :
  oldKey ≠ newKey → renameEntry v oldKey newKey !! oldKey = None.
Proof.
  intros Hne. rewrite lookup_renameEntry.
  destruct (v !! oldKey) as [x|] eqn:Hx; [|done].
  rewrite decide_False by done. by rewrite decide_True.
Qed.

Lemma renameEntry_idemp v oldKey newKey :
  renameEntry (renameEntry v oldKey newKey) oldKey newKey
  = renameEntry v oldKey newKey.
Proof.
  destruct (decide (oldKey = newKey)) as [->|Hne].
  - by rewrite !renameEntry_same.
  - apply renameEntry_absent. by apply renameEntry_old_gone.
Qed.

Lemma renameEntry_size_both v oldKey newKey :
  oldKey ≠ newKey → is_Some (v !! oldKey) → is_Some (v !! newKey) →
  S (size (renameEntry v oldKey newKey)) = size v.
Proof.
  intros Hne [x Hx] [y Hy]. rewrite (renameEntry_present _ _ _ x) by done.
  rewrite map_size_insert_Some by (rewrite lookup_delete_ne; eauto).
  rewrite <-(map_size_insert_None oldKey x (delete oldKey v))
    by apply lookup_delete_eq.
  rewrite insert_delete_eq. by rewrite insert_id.
Qed.

Lemma renameEntry_both v oldKey newKey :
  oldKey ≠ newKey → is_Some (v !! oldKey) → is_Some (v !! newKey) →
  renameEntry v oldKey newKey !! oldKey = None ∧
  renameEntry v oldKey newKey !! newKey = v !! oldKey ∧
  (∀ k, k ≠ oldKey → k ≠ newKey → renameEntry v oldKey newKey !! k = v !! k) ∧
  S (size (renameEntry v oldKey newKey)) = size v.
Proof.
  intros Hne Hold Hnew. split; [by apply renameEntry_old_gone|].
  split; [|split; [|by apply renameEntry_size_both]].
  - destruct Hold as [x Hx]. rewrite lookup_renameEntry, Hx.
    by rewrite decide_True.
  - intros k Hk1 Hk2. rewrite lookup_renameEntry.
    destruct (v !! oldKey); [|done]. by rewrite !decide_False.
Qed.

End RenameEntry.

(** C10.  When a map holds both the old key and the new key, and the two
    differ, [renameKey] removes the old key and stores its value at the new
    key: the value that was at the new key is lost, every other key keeps
    its value, and the map has one key less. *)
Theorem renameKey_overwrites_existing_target (m : MapValue)
    (oldKey newKey : string) :
  oldKey ≠ newKey →
  is_Some (entryAt m oldKey) →
  is_Some (entryAt m newKey) →
  let m' := renameKey m oldKey newKey in
  entryAt m' oldKey = None ∧
  entryAt m' newKey = entryAt m oldKey ∧
  (∀ k, k ≠ oldKey → k ≠ newKey → entryAt m' k = entryAt m k) ∧
  S (len m') = len m.
Proof.
  intros Hne Hold Hnew.
  destruct m as [v|v|v|]; simpl in *; [| | |by destruct Hold];
    apply fmap_is_Some in Hold; apply fmap_is_Some in Hnew;
    destruct (renameEntry_both v oldKey newKey Hne Hold Hnew)
      as (Hgone & Hmoved & Hother & Hsize);
    (repeat split; [by rewrite Hgone|by rewrite Hmoved| |exact Hsize]);
    intros k Hk1 Hk2; by rewrite Hother.
Qed.

Lemma renameKey_overwrites_existing_target_witness :
  let m := ContextMap {["my-vcluster" := mkContext "c0" "a0" "";
                        "cp1" := mkContext "c1" "a1" "ns1"]} in
  entryAt (renameKey m "my-vcluster" "cp1") "cp1"
    = Some (ContextEntry (mkContext "c0" "a0" "")) ∧
  S (len (renameKey m "my-vcluster" "cp1")) = len m.
Proof.
  intros m.
  destruct (renameKey_overwrites_existing_target m "my-vcluster" "cp1")
    as (_ & Hnew & _ & Hlen).
  - discriminate.
  - subst m. simpl. rewrite lookup_insert_eq. by eexists.
  - subst m. simpl. rewrite lookup_insert_ne by discriminate.
    rewrite lookup_singleton_eq. by eexists.
  - split; [|exact Hlen]. rewrite Hnew. subst m. simpl.
    by rewrite lookup_insert_eq.
Defined.

(** ** adjustConfigKeys *)

Section KeyRemapperProperties.
Context `{Tenancy, Certs}.
Implicit Types (config : Config) (cpName controlPlaneType : string).

Lemma adjustCase_unfold config cpName clusterKey authInfoKey contextKey :
  adjustCase config cpName clusterKey authInfoKey contextKey =
  {| Clusters :=
       renameEntry (Clusters config) clusterKey (GenerateClusterName cpName);
     AuthInfos :=
       renameEntry (AuthInfos config) authInfoKey
         (GenerateAuthInfoAdminName cpName);
     Contexts :=
       <[GenerateContextName cpName := generatedContext cpName]>
         (renameEntry (Contexts config) contextKey
            (GenerateContextName cpName));
     CurrentContext := GenerateContextName cpName |}.
Proof. reflexivity. Qed.

Lemma adjustConfigKeys_known config cpName controlPlaneType :
  knownType controlPlaneType →
  adjustConfigKeys config cpName controlPlaneType =
  adjustCase config cpName (genericClusterKey controlPlaneType)
    (genericAuthInfoKey controlPlaneType) (genericContextKey controlPlaneType).
Proof.
  intros Hknown.
  unfold adjustConfigKeys, genericClusterKey, genericAuthInfoKey,
    genericContextKey.
  destruct (decide (controlPlaneType = ControlPlaneTypeOCM)); [done|].
  destruct Hknown as [?|Hv]; [done|]. by rewrite decide_True.
Qed.

Lemma adjustConfigKeys_vcluster config cpName :
  adjustConfigKeys config cpName ControlPlaneTypeVCluster =
  adjustCase config cpName "my-vcluster" "my-vcluster" "my-vcluster".
Proof.
  unfold adjustConfigKeys.
  rewrite decide_False by (intros Heq; by apply ControlPlaneType_distinct).
  by rewrite decide_True.
Qed.

(** The context entry written last makes a second rename of the contexts
    leave the map as it is. *)
Lemma upsert_rename_idemp (v : gmap string Context) oldKey newKey (x : Context) :
  <[newKey := x]> (renameEntry (<[newKey := x]> (renameEntry v oldKey newKey))
                     oldKey newKey)
  = <[newKey := x]> (renameEntry v oldKey newKey).
Proof.
  destruct (decide (oldKey = newKey)) as [->|Hne].
  - rewrite !renameEntry_same. apply insert_insert_eq.
  - rewrite (renameEntry_absent (<[newKey := x]> _)).
    + apply insert_insert_eq.
    + rewrite lookup_insert_ne by done. by apply renameEntry_old_gone.
Qed.

Lemma adjustCase_idemp config cpName clusterKey authInfoKey contextKey :
  adjustCase (adjustCase config cpName clusterKey authInfoKey contextKey)
    cpName clusterKey authInfoKey contextKey
  = adjustCase config cpName clusterKey authInfoKey contextKey.
Proof.
  rewrite !adjustCase_unfold. simpl.
  by rewrite !renameEntry_idemp, upsert_rename_idemp.
Qed.

Lemma lookup_generated_context config cpName controlPlaneType :
  knownType controlPlaneType →
  Contexts (adjustConfigKeys config cpName controlPlaneType)
    !! GenerateContextName cpName = Some (generatedContext cpName).
Proof.
  intros Hknown.
  rewrite adjustConfigKeys_known, adjustCase_unfold by done. simpl.
  apply lookup_insert_eq.
Qed.

(** C1.  Control plane ["cp1"] of type VCluster, document with the single
    key ["my-vcluster"] in each mapping: after [adjustConfigKeys] each
    mapping holds exactly the generated key (with the cluster and the auth
    identity that were under ["my-vcluster"], and with the generated
    context), the current context is the generated context name, and, the
    generated names being different from ["my-vcluster"], the key
    ["my-vcluster"] is in none of the three mappings. *)
Theorem adjustConfigKeys_vcluster_cp1 (C : Cluster) (A : AuthInfo) :
  GenerateClusterName "cp1" ≠ "my-vcluster" →
  GenerateAuthInfoAdminName "cp1" ≠ "my-vcluster" →
  GenerateContextName "cp1" ≠ "my-vcluster" →
  let doc :=
    {| Clusters := {["my-vcluster" := C]};
       AuthInfos := {["my-vcluster" := A]};
       Contexts := {["my-vcluster" :=
         {| Context_Cluster := "my-vcluster";
            Context_AuthInfo := "my-vcluster"; Context_Namespace := "" |}]};
       CurrentContext := "my-vcluster" |} in
  let out := adjustConfigKeys doc "cp1" ControlPlaneTypeVCluster in
  Clusters out = {[GenerateClusterName "cp1" := C]} ∧
  AuthInfos out = {[GenerateAuthInfoAdminName "cp1" := A]} ∧
  Contexts out =
    {[GenerateContextName "cp1" :=
        {| Context_Cluster := GenerateClusterName "cp1";
           Context_AuthInfo := GenerateAuthInfoAdminName "cp1";
           Context_Namespace := "" |}]} ∧
  CurrentContext out = GenerateContextName "cp1" ∧
  Clusters out !! "my-vcluster" = None ∧
  AuthInfos out !! "my-vcluster" = None ∧
  Contexts out !! "my-vcluster" = None.
Proof.
  intros Hc Ha Hx doc out. subst out doc.
  rewrite adjustConfigKeys_vcluster, adjustCase_unfold. simpl.
  rewrite !(renameEntry_present _ _ _ _ (lookup_singleton_eq _ _)).
  rewrite !delete_singleton_eq, !insert_empty, insert_singleton_eq.
  repeat split; by rewrite lookup_singleton_ne.
Qed.

(** C2.  For a known control-plane type, [adjustConfigKeys] applied twice
    gives the same document as [adjustConfigKeys] applied once. *)
Theorem adjustConfigKeys_idempotent config cpName controlPlaneType :
  knownType controlPlaneType →
  adjustConfigKeys (adjustConfigKeys config cpName controlPlaneType)
    cpName controlPlaneType
  = adjustConfigKeys config cpName controlPlaneType.
Proof.
  intros Hknown. rewrite !adjustConfigKeys_known by done.
  apply adjustCase_idemp.
Qed.

(** C3.  For a known control-plane type, [adjustConfigKeys] sets the
    current context to the generated context name and leaves, at that key
    of the contexts, the record that refers to the generated cluster name
    and the generated auth-identity name, whatever the contexts of the
    input were. *)
Theorem adjustConfigKeys_upserts_context config cpName controlPlaneType :
  knownType controlPlaneType →
  let out := adjustConfigKeys config cpName controlPlaneType in
  CurrentContext out = GenerateContextName cpName ∧
  Contexts out !! GenerateContextName cpName =
    Some {| Context_Cluster := GenerateClusterName cpName;
            Context_AuthInfo := GenerateAuthInfoAdminName cpName;
            Context_Namespace := "" |}.
Proof.
  intros Hknown out. subst out.
  split; [|by apply lookup_generated_context].
  by rewrite adjustConfigKeys_known, adjustCase_unfold.
Qed.

(** C5.  For a control-plane type that is neither OCM nor VCluster,
    [adjustConfigKeys] returns the document it was given. *)
Theorem adjustConfigKeys_unknown_type config cpName controlPlaneType :
  ¬ knownType controlPlaneType →
  adjustConfigKeys config cpName controlPlaneType = config.
Proof.
  intros Hunknown. unfold adjustConfigKeys.
  destruct (decide (controlPlaneType = ControlPlaneTypeOCM)) as [Ho|_];
    [destruct Hunknown; by left|].
  destruct (decide (controlPlaneType = ControlPlaneTypeVCluster)) as [Hv|_];
    [destruct Hunknown; by right|].
  done.
Qed.

(** C4, as the code has it.  For a known control-plane type: in the
    clusters and in the auth identities, a generic key that is present is
    removed and its value is stored under the generated key, and a mapping
    without the generic key is left as it is.  The contexts of the result
    are, when the generic key is present, the contexts of the input without
    the generic key and with the generated context at the generated context
    name; when the generic key is absent, the contexts of the input with
    the generated context at the generated context name. *)
Theorem adjustConfigKeys_renames_generic_keys config cpName controlPlaneType :
  knownType controlPlaneType →
  let out := adjustConfigKeys config cpName controlPlaneType in
  (∀ c, Clusters config !! genericClusterKey controlPlaneType = Some c →
     Clusters out = <[GenerateClusterName cpName := c]>
       (delete (genericClusterKey controlPlaneType) (Clusters config))) ∧
  (Clusters config !! genericClusterKey controlPlaneType = None →
     Clusters out = Clusters config) ∧
  (∀ a, AuthInfos config !! genericAuthInfoKey controlPlaneType = Some a →
     AuthInfos out = <[GenerateAuthInfoAdminName cpName := a]>
       (delete (genericAuthInfoKey controlPlaneType) (AuthInfos config))) ∧
  (AuthInfos config !! genericAuthInfoKey controlPlaneType = None →
     AuthInfos out = AuthInfos config) ∧
  (is_Some (Contexts config !! genericContextKey controlPlaneType) →
     Contexts out = <[GenerateContextName cpName := generatedContext cpName]>
       (delete (genericContextKey controlPlaneType) (Contexts config))) ∧
  (Contexts config !! genericContextKey controlPlaneType = None →
     Contexts out = <[GenerateContextName cpName := generatedContext cpName]>
       (Contexts config)).
Proof.
  intros Hknown out. subst out.
  rewrite adjustConfigKeys_known, adjustCase_unfold by done. simpl.
  repeat split.
  - intros c Hc. by apply renameEntry_present.
  - intros Hc. by apply renameEntry_absent.
  - intros a Ha. by apply renameEntry_present.
  - intros Ha. by apply renameEntry_absent.
  - intros [x Hx]. rewrite (renameEntry_present _ _ _ x) by done.
    apply insert_insert_eq.
  - intros Hx. by rewrite renameEntry_absent.
Qed.

End KeyRemapperProperties.

Section KeyRemapperSamples.
Import Sample.

Lemma adjustConfigKeys_vcluster_cp1_witness :
  let out := adjustConfigKeys vclusterDoc "cp1" "vcluster" in
  Clusters out = {["cp1-cluster" := C]} ∧
  AuthInfos out = {["cp1-admin" := A]} ∧
  Contexts out = {["cp1" := mkContext "cp1-cluster" "cp1-admin" ""]} ∧
  CurrentContext out = "cp1" ∧
  Clusters out !! "my-vcluster" = None ∧
  AuthInfos out !! "my-vcluster" = None ∧
  Contexts out !! "my-vcluster" = None.
Proof.
  apply (adjustConfigKeys_vcluster_cp1 (H := tenancy) (H0 := certs) C A);
    simpl; discriminate.
Defined.

Lemma adjustConfigKeys_idempotent_witness :
  adjustConfigKeys (adjustConfigKeys vclusterDoc "cp1" "vcluster")
    "cp1" "vcluster"
  = adjustConfigKeys vclusterDoc "cp1" "vcluster".
Proof.
  apply (adjustConfigKeys_idempotent (H := tenancy) (H0 := certs)).
  right. reflexivity.
Defined.

Lemma adjustConfigKeys_upserts_context_witness :
  let out := adjustConfigKeys NewConfig "cp1" "ocm" in
  CurrentContext out = "cp1" ∧
  Contexts out !! "cp1" = Some (mkContext "cp1-cluster" "cp1-admin" "").
Proof.
  apply (adjustConfigKeys_upserts_context (H := tenancy) (H0 := certs)).
  left. reflexivity.
Defined.

Lemma adjustConfigKeys_unknown_type_witness :
  adjustConfigKeys vclusterDoc "cp1" "k8s" = vclusterDoc.
Proof.
  apply (adjustConfigKeys_unknown_type (H := tenancy) (H0 := certs)).
  intros [Ho|Hv]; discriminate.
Defined.

(** C4 as stated fails on the contexts of two documents: the contexts of
    the empty document, which have no generic key, are not the same after
    the remap; and the context that the sample document has under the
    generic key is not the one found under the generated key after the
    remap. *)
Lemma adjustConfigKeys_contexts_not_only_renamed :
  (Contexts NewConfig !! genericContextKey "vcluster" = None ∧
   Contexts (adjustConfigKeys NewConfig "cp1" "vcluster")
     ≠ Contexts NewConfig) ∧
  (Contexts vclusterDoc !! genericContextKey "vcluster"
     = Some (mkContext "my-vcluster" "my-vcluster" "") ∧
   Contexts (adjustConfigKeys vclusterDoc "cp1" "vcluster")
     !! GenerateContextName "cp1"
     ≠ Some (mkContext "my-vcluster" "my-vcluster" "")).
Proof.
  assert (Hknown : knownType "vcluster") by (right; reflexivity).
  pose proof (lookup_generated_context NewConfig "cp1" "vcluster" Hknown)
    as Hnew.
  pose proof (lookup_generated_context vclusterDoc "cp1" "vcluster" Hknown)
    as Hdoc.
  split; split.
  - reflexivity.
  - intros Heq. rewrite Heq in Hnew. discriminate Hnew.
  - reflexivity.
  - rewrite Hdoc. discriminate.
Qed.

Lemma adjustConfigKeys_renames_generic_keys_witness :
  Clusters (adjustConfigKeys vclusterDoc "cp1" "vcluster")
    = <["cp1-cluster" := C]> (delete "my-vcluster" (Clusters vclusterDoc)).
Proof.
  destruct (adjustConfigKeys_renames_generic_keys (H := tenancy) (H0 := certs)
              vclusterDoc "cp1" "vcluster") as (Hc & _).
  - right. reflexivity.
  - apply (Hc C). reflexivity.
Defined.

End KeyRemapperSamples.

(** ** merge *)

Section MergeProperties.
Import CredentialMerger.

Lemma lookup_insertAll {V} (src dst : gmap string V) (k : string) :
  insertAll src dst !! k =
    match src !! k with
    | Some x => Some x
    | None => dst !! k
    end.
Proof.
  unfold insertAll.
  apply (map_fold_weak_ind (λ acc m,
    acc !! k = match m !! k with Some x => Some x | None => dst !! k end)).
  - by rewrite lookup_empty.
  - intros i x m acc Hi IH. rewrite !lookup_insert.
    case_decide; [done|exact IH].
Qed.

(** C6.  [merge] puts every entry of each of the three mappings of the
    source into the destination, replacing an entry that the destination
    had under the same key; an entry whose key the source does not have is
    kept; the current context of the destination becomes that of the
    source. *)
Theorem merge_last_writer_wins (existing new : Config) :
  let out := (merge existing new).1 in
  (merge existing new).2 = None ∧
  (∀ k, Clusters out !! k =
     match Clusters new !! k with
     | Some c => Some c
     | None => Clusters existing !! k
     end) ∧
  (∀ k, AuthInfos out !! k =
     match AuthInfos new !! k with
     | Some a => Some a
     | None => AuthInfos existing !! k
     end) ∧
  (∀ k, Contexts out !! k =
     match Contexts new !! k with
     | Some x => Some x
     | None => Contexts existing !! k
     end) ∧
  CurrentContext out = CurrentContext new.
Proof.
  simpl. repeat split; intros k; apply lookup_insertAll.
Qed.

End MergeProperties.

(** ** WatchForSecretCreation *)

Section ReadinessWaiterProperties.
Import ReadinessWaiter.
Implicit Types (secretName : string) (events : list Secret).

(** No event with the awaited name: the channel stays open. *)
Lemma deliver_no_match secretName events :
  Forall (λ secret, Name secret ≠ secretName) events →
  deliver secretName events Open = Some Open.
Proof.
  induction 1 as [|secret events Hne _ IH]; [done|].
  simpl. unfold AddFunc. by rewrite decide_False.
Qed.

Lemma deliver_app secretName events1 events2 stopCh :
  deliver secretName (events1 ++ events2) stopCh =
  deliver secretName events1 stopCh ≫= deliver secretName events2.
Proof.
  revert stopCh. induction events1 as [|secret events1 IH]; intros stopCh;
    [done|].
  simpl. destruct (AddFunc secretName secret stopCh); [apply IH|done].
Qed.

(** The wait is still blocked after events none of which has the awaited
    name. *)
Lemma WatchForSecretCreation_blocked secretName events :
  Forall (λ secret, Name secret ≠ secretName) events →
  WatchForSecretCreation secretName events = Some false.
Proof.
  intros Hno. unfold WatchForSecretCreation. by rewrite deliver_no_match.
Qed.

(** The wait returns with the first event that has the awaited name. *)
Lemma WatchForSecretCreation_first_match secretName events secret :
  Forall (λ secret, Name secret ≠ secretName) events →
  Name secret = secretName →
  WatchForSecretCreation secretName (events ++ [secret]) = Some true.
Proof.
  intros Hno Hname. unfold WatchForSecretCreation.
  rewrite deliver_app, deliver_no_match by done. simpl.
  unfold AddFunc. by rewrite decide_True.
Qed.

(** A later event with the awaited name closes the closed channel. *)
Lemma WatchForSecretCreation_second_match secretName events1 events2 s1 s2 :
  Forall (λ secret, Name secret ≠ secretName) events1 →
  Forall (λ secret, Name secret ≠ secretName) events2 →
  Name s1 = secretName → Name s2 = secretName →
  WatchForSecretCreation secretName (events1 ++ s1 :: events2 ++ [s2]) = None.
Proof.
  intros Hno1 Hno2 Hs1 Hs2. unfold WatchForSecretCreation.
  rewrite deliver_app, deliver_no_match by done. simpl.
  unfold AddFunc at 1. rewrite decide_True by done. simpl.
  rewrite deliver_app.
  assert (Hclosed : deliver secretName events2 Closed = Some Closed).
  { clear -Hno2. induction Hno2 as [|secret events Hne _ IH]; [done|].
    simpl. unfold AddFunc. by rewrite decide_False. }
  rewrite Hclosed. simpl. unfold AddFunc. by rewrite decide_True.
Qed.

(** C7, on the stream of two creation events for the awaited secret: the
    handler closes [stopCh] at both, and the second close is a panic.
    After ["other"] alone the wait is blocked, after ["other"] and
    ["target"] it has returned. *)
Theorem WatchForSecretCreation_closes_twice :
  WatchForSecretCreation "target" [Sample.named "other"] = Some false ∧
  WatchForSecretCreation "target"
    [Sample.named "other"; Sample.named "target"] = Some true ∧
  WatchForSecretCreation "target"
    [Sample.named "target"; Sample.named "target"] = None.
Proof. by vm_compute. Qed.

End ReadinessWaiterProperties.

(** ** LoadAndMerge *)

Section LoadAndMergeProperties.
Context `{Tenancy, Certs, Util, Clientcmd}.
Variable merge : Config → Config → Config * option error.
Implicit Types (client : Clientset) (name controlPlaneType : string)
  (w : World) (e : error).

(** The payload handed to the decoder, the outcome of the fetch and the
    call that makes it. *)
Local Abbreviation payload cpt ks :=
  (default [] (Data ks !! GetKubeconfSecretKeyNameByControlPlaneType cpt))
  (only parsing).

Local Abbreviation fetch client cp cpt :=
  (Secrets_Get client (GenerateNamespaceFromControlPlaneName cp)
     (GetKubeconfSecretNameByControlPlaneType cpt)) (only parsing).

Local Abbreviation evFetch cp cpt :=
  (EvGetSecret (GenerateNamespaceFromControlPlaneName cp)
     (GetKubeconfSecretNameByControlPlaneType cpt)) (only parsing).

Lemma loadControlPlaneKubeconfig_run client name controlPlaneType w :
  loadControlPlaneKubeconfig client name controlPlaneType w =
  match fetch client name controlPlaneType with
  | Err e => (Err e, logCall (evFetch name controlPlaneType) w)
  | Ok ks =>
      (Load (payload controlPlaneType ks),
       logCall (EvLoad (payload controlPlaneType ks))
         (logCall (evFetch name controlPlaneType) w))
  end.
Proof.
  unfold loadControlPlaneKubeconfig, bind, getSecret, load. simpl.
  by destruct (Secrets_Get _ _ _).
Qed.

(** [LoadAndMergeNoWrite] merges into the caller's document and never
    writes; when the bundle cannot be loaded the document is untouched. *)
Lemma LoadAndMergeNoWrite_run client name controlPlaneType konfig w :
  LoadAndMergeNoWrite merge client name controlPlaneType konfig w =
  match loadControlPlaneKubeconfig client name controlPlaneType w with
  | (Ok cpKonfig, w') =>
      (merge konfig (adjustConfigKeys cpKonfig name controlPlaneType),
       logCall EvMerge w')
  | (Err e, w') => ((konfig, Some e), w')
  end.
Proof.
  unfold LoadAndMergeNoWrite.
  by destruct (loadControlPlaneKubeconfig _ _ _ _) as [[cpKonfig|e] w'].
Qed.

Lemma LoadAndMergeNoWrite_files client name controlPlaneType konfig w :
  files (LoadAndMergeNoWrite merge client name controlPlaneType konfig w).2
  = files w.
Proof.
  rewrite LoadAndMergeNoWrite_run, loadControlPlaneKubeconfig_run.
  destruct (Secrets_Get _ _ _) as [ks|e]; [|done].
  by destruct (Load _).
Qed.

Lemma LoadAndMerge_fetch_fails client name controlPlaneType w e :
  fetch client name controlPlaneType = Err e →
  LoadAndMerge merge client name controlPlaneType w =
  (Err e, {| files := files w;
             calls := calls w ++ [evFetch name controlPlaneType] |}).
Proof.
  intros Hfetch. unfold LoadAndMerge, bind.
  by rewrite loadControlPlaneKubeconfig_run, Hfetch.
Qed.

Lemma LoadAndMerge_decode_fails client name controlPlaneType w ks e :
  fetch client name controlPlaneType = Ok ks →
  Load (payload controlPlaneType ks) = Err e →
  LoadAndMerge merge client name controlPlaneType w =
  (Err e, {| files := files w;
             calls := calls w ++ [evFetch name controlPlaneType;
                                  EvLoad (payload controlPlaneType ks)] |}).
Proof.
  intros Hfetch Hload. unfold LoadAndMerge, bind.
  rewrite loadControlPlaneKubeconfig_run, Hfetch, Hload.
  unfold logCall. simpl. by rewrite <-app_assoc.
Qed.

Lemma LoadAndMerge_load_fails client name controlPlaneType w ks cpKonfig e :
  fetch client name controlPlaneType = Ok ks →
  Load (payload controlPlaneType ks) = Ok cpKonfig →
  LoadFromFile GetDefaultFilename (files w) = Err e →
  LoadAndMerge merge client name controlPlaneType w =
  (Err e, {| files := files w;
             calls := calls w ++ [evFetch name controlPlaneType;
                                  EvLoad (payload controlPlaneType ks);
                                  EvLoadFromFile GetDefaultFilename] |}).
Proof.
  intros Hfetch Hload Hfile. unfold LoadAndMerge, bind.
  rewrite loadControlPlaneKubeconfig_run, Hfetch, Hload.
  unfold LoadKubeconfig, loadFromFile, logCall. simpl. rewrite Hfile.
  by rewrite <-!app_assoc.
Qed.

Lemma LoadAndMerge_merge_fails client name controlPlaneType w ks cpKonfig
    konfig konfig' e :
  fetch client name controlPlaneType = Ok ks →
  Load (payload controlPlaneType ks) = Ok cpKonfig →
  LoadFromFile GetDefaultFilename (files w) = Ok konfig →
  merge konfig (adjustConfigKeys cpKonfig name controlPlaneType)
    = (konfig', Some e) →
  LoadAndMerge merge client name controlPlaneType w =
  (Err e, {| files := files w;
             calls := calls w ++ [evFetch name controlPlaneType;
                                  EvLoad (payload controlPlaneType ks);
                                  EvLoadFromFile GetDefaultFilename;
                                  EvMerge] |}).
Proof.
  intros Hfetch Hload Hfile Hmerge. unfold LoadAndMerge, bind.
  rewrite loadControlPlaneKubeconfig_run, Hfetch, Hload.
  unfold LoadKubeconfig, loadFromFile, mergeM, logCall. simpl.
  rewrite Hfile, Hmerge. by rewrite <-!app_assoc.
Qed.

(** When every step succeeds the document is written, as the last call. *)
Lemma LoadAndMerge_persists client name controlPlaneType w ks cpKonfig
    konfig konfig' :
  fetch client name controlPlaneType = Ok ks →
  Load (payload controlPlaneType ks) = Ok cpKonfig →
  LoadFromFile GetDefaultFilename (files w) = Ok konfig →
  merge konfig (adjustConfigKeys cpKonfig name controlPlaneType)
    = (konfig', None) →
  LoadAndMerge merge client name controlPlaneType w =
  (match (WriteToFile konfig' GetDefaultFilename (files w)).1 with
   | Some e => Err e
   | None => Ok ()
   end,
   {| files := (WriteToFile konfig' GetDefaultFilename (files w)).2;
      calls := calls w ++ [evFetch name controlPlaneType;
                           EvLoad (payload controlPlaneType ks);
                           EvLoadFromFile GetDefaultFilename;
                           EvMerge;
                           EvWriteToFile GetDefaultFilename] |}).
Proof.
  intros Hfetch Hload Hfile Hmerge. unfold LoadAndMerge, bind.
  rewrite loadControlPlaneKubeconfig_run, Hfetch, Hload.
  unfold LoadKubeconfig, loadFromFile, mergeM, WriteKubeconfig, writeToFile,
    logCall. simpl.
  rewrite Hfile, Hmerge. simpl.
  destruct (WriteToFile _ _ _) as [err fs]. simpl. by rewrite <-!app_assoc.
Qed.

(** C8.  When the fetch of the bundle, its decoding, the load of the
    aggregate or the merge fails with an error, [LoadAndMerge] returns that
    error; the calls it has made are exactly the ones up to and including
    the failing step, so every later step is skipped and nothing is
    written; and the files are as they were. *)
Theorem LoadAndMerge_error_before_persist client name controlPlaneType w e
    (made : list Event) :
  (fetch client name controlPlaneType = Err e ∧
   made = [evFetch name controlPlaneType])
  ∨ (∃ ks,
       fetch client name controlPlaneType = Ok ks ∧
       Load (payload controlPlaneType ks) = Err e ∧
       made = [evFetch name controlPlaneType;
               EvLoad (payload controlPlaneType ks)])
  ∨ (∃ ks cpKonfig,
       fetch client name controlPlaneType = Ok ks ∧
       Load (payload controlPlaneType ks) = Ok cpKonfig ∧
       LoadFromFile GetDefaultFilename (files w) = Err e ∧
       made = [evFetch name controlPlaneType;
               EvLoad (payload controlPlaneType ks);
               EvLoadFromFile GetDefaultFilename])
  ∨ (∃ ks cpKonfig konfig konfig',
       fetch client name controlPlaneType = Ok ks ∧
       Load (payload controlPlaneType ks) = Ok cpKonfig ∧
       LoadFromFile GetDefaultFilename (files w) = Ok konfig ∧
       merge konfig (adjustConfigKeys cpKonfig name controlPlaneType)
         = (konfig', Some e) ∧
       made = [evFetch name controlPlaneType;
               EvLoad (payload controlPlaneType ks);
               EvLoadFromFile GetDefaultFilename;
               EvMerge]) →
  LoadAndMerge merge client name controlPlaneType w =
    (Err e, {| files := files w; calls := calls w ++ made |}) ∧
  (∀ filename, EvWriteToFile filename ∉ made).
Proof.
  intros [(Hfetch & ->)|[(ks & Hfetch & Hload & ->)
    |[(ks & cpKonfig & Hfetch & Hload & Hfile & ->)
    |(ks & cpKonfig & konfig & konfig' & Hfetch & Hload & Hfile & Hmerge & ->)]]];
    (split; [eauto using LoadAndMerge_fetch_fails,
      LoadAndMerge_decode_fails, LoadAndMerge_load_fails,
      LoadAndMerge_merge_fails|]);
    intros filename Hin; repeat (apply elem_of_cons in Hin as [Hin|Hin];
      [discriminate Hin|]); by apply elem_of_nil in Hin.
Qed.

(** C9, as the code has it.  When the fetched bundle has no payload under
    the key chosen for the control-plane type, the decoder is given the
    empty payload and [loadControlPlaneKubeconfig] returns what the decoder
    returns for it. *)
Theorem loadControlPlaneKubeconfig_missing_key client name controlPlaneType
    ks w :
  fetch client name controlPlaneType = Ok ks →
  Data ks !! GetKubeconfSecretKeyNameByControlPlaneType controlPlaneType
    = None →
  (loadControlPlaneKubeconfig client name controlPlaneType w).1 = Load [].
Proof.
  intros Hfetch Hkey.
  by rewrite loadControlPlaneKubeconfig_run, Hfetch, Hkey.
Qed.

End LoadAndMergeProperties.

Section LoadAndMergeSamples.
Import Sample.

Lemma LoadAndMerge_error_before_persist_witness :
  LoadAndMerge CredentialMerger.merge emptyStore "cp1" "vcluster" world0 =
    (Err NotFoundError,
     {| files := files world0;
        calls := calls world0 ++
                 [EvGetSecret "cp1-system" "admin-kubeconfig"] |}) ∧
  (∀ filename,
     EvWriteToFile filename ∉ [EvGetSecret "cp1-system" "admin-kubeconfig"]).
Proof.
  apply (LoadAndMerge_error_before_persist (H := tenancy) (H0 := certs)
           (H1 := util) (H2 := clientcmd)).
  left. split; reflexivity.
Defined.

(** C9 as stated fails: the secret of ["cp1"] has no payload under
    ["kubeconfig"], and the load succeeds with the default document. *)
Lemma loadControlPlaneKubeconfig_missing_key_succeeds :
  Secrets_Get keylessStore (GenerateNamespaceFromControlPlaneName "cp1")
    (GetKubeconfSecretNameByControlPlaneType "vcluster") = Ok keylessSecret ∧
  Data keylessSecret !! GetKubeconfSecretKeyNameByControlPlaneType "vcluster"
    = None ∧
  (loadControlPlaneKubeconfig keylessStore "cp1" "vcluster" world0).1
    = Ok NewConfig ∧
  (loadControlPlaneKubeconfig keylessStore "cp1" "vcluster" world0).1
    ≠ Err KeyMissingError.
Proof.
  assert (Hrun :
    (loadControlPlaneKubeconfig keylessStore "cp1" "vcluster" world0).1
      = Ok NewConfig) by reflexivity.
  split; [reflexivity|]. split; [reflexivity|]. split; [exact Hrun|].
  rewrite Hrun. discriminate.
Qed.

Lemma loadControlPlaneKubeconfig_missing_key_witness :
  (loadControlPlaneKubeconfig keylessStore "cp1" "vcluster" world0).1
    = Load [].
Proof.
  apply (loadControlPlaneKubeconfig_missing_key (H1 := util) (H2 := clientcmd)
           keylessStore "cp1" "vcluster" keylessSecret world0);
    reflexivity.
Defined.

End LoadAndMergeSamples.

(** * Further properties of the code *)

(** ** renameKey: edge cases, round trip, size *)

Section RenameEntryMore.
Context {V : Type}.
Implicit Types (v : gmap string V) (oldKey newKey k : string).

Lemma renameEntry_fresh_size v oldKey newKey :
  is_Some (v !! oldKey) → v !! newKey = None →
  size (renameEntry v oldKey newKey) = size v.
Proof.
  intros [x Hx] Hnew. assert (oldKey ≠ newKey) by congruence.
  rewrite (renameEntry_present _ _ _ x) by done.
  rewrite map_size_insert_None by (by rewrite lookup_delete_ne).
  rewrite <-(map_size_insert_None oldKey x (delete oldKey v))
    by apply lookup_delete_eq.
  rewrite insert_delete_eq. by rewrite insert_id.
Qed.

Lemma renameEntry_size_le v oldKey newKey :
  size (renameEntry v oldKey newKey) ≤ size v.
Proof.
  destruct (decide (oldKey = newKey)) as [->|Hne];
    [by rewrite renameEntry_same|].
  destruct (v !! oldKey) as [x|] eqn:Hx;
    [|by rewrite renameEntry_absent].
  destruct (v !! newKey) as [y|] eqn:Hy.
  - pose proof (renameEntry_size_both v oldKey newKey Hne) as Hsize.
    rewrite Hx, Hy in Hsize. specialize (Hsize (mk_is_Some _ _ eq_refl)
      (mk_is_Some _ _ eq_refl)). lia.
  - rewrite renameEntry_fresh_size; [done|by rewrite Hx|done].
Qed.

Lemma renameEntry_round_trip v oldKey newKey :
  v !! newKey = None →
  renameEntry (renameEntry v oldKey newKey) newKey oldKey = v.
Proof.
  intros Hnew. destruct (v !! oldKey) as [x|] eqn:Hx.
  - assert (oldKey ≠ newKey) by congruence.
    rewrite (renameEntry_present v oldKey newKey x) by done.
    rewrite (renameEntry_present _ newKey oldKey x)
      by apply lookup_insert_eq.
    apply map_eq. intros k. rewrite lookup_insert.
    case_decide; [by subst|].
    rewrite lookup_delete. case_decide; [by subst|].
    rewrite lookup_insert_ne by done. by rewrite lookup_delete_ne.
  - rewrite (renameEntry_absent v oldKey newKey) by done.
    by apply renameEntry_absent.
Qed.

End RenameEntryMore.

(** X1.  [renameKey] returns the value it was given when the old key is
    not in the map or when the old and the new key are the same. *)
Theorem renameKey_unchanged (m : MapValue) (oldKey newKey : string) :
  entryAt m oldKey = None ∨ oldKey = newKey →
  renameKey m oldKey newKey = m.
Proof.
  intros [Habsent| ->].
  - destruct m as [v|v|v|]; simpl in *; [| | |done];
      apply fmap_None in Habsent; by rewrite renameEntry_absent.
  - destruct m as [v|v|v|]; simpl; by rewrite ?renameEntry_same.
Qed.

Lemma renameKey_unchanged_witness :
  renameKey (ClusterMap {["cp1-cluster" := Sample.C]}) "my-vcluster"
    "cp2-cluster" = ClusterMap {["cp1-cluster" := Sample.C]}.
Proof.
  apply renameKey_unchanged. left. reflexivity.
Defined.

(** X2.  Renaming a second time with the same keys changes nothing. *)
Theorem renameKey_idempotent (m : MapValue) (oldKey newKey : string) :
  renameKey (renameKey m oldKey newKey) oldKey newKey
  = renameKey m oldKey newKey.
Proof.
  destruct m as [v|v|v|]; simpl; by rewrite ?renameEntry_idemp.
Qed.

(** X3.  When the old key is in the map and the new key is not,
    [renameKey] loses nothing: the old key is gone, its value is at the new
    key, every other key keeps its value and the map has as many keys as
    before. *)
Theorem renameKey_fresh_target (m : MapValue) (oldKey newKey : string) :
  is_Some (entryAt m oldKey) →
  entryAt m newKey = None →
  let m' := renameKey m oldKey newKey in
  entryAt m' oldKey = None ∧
  entryAt m' newKey = entryAt m oldKey ∧
  (∀ k, k ≠ oldKey → k ≠ newKey → entryAt m' k = entryAt m k) ∧
  len m' = len m.
Proof.
  intros Hold Hnew.
  assert (Hne : oldKey ≠ newKey).
  { intros ->. rewrite Hnew in Hold. by destruct Hold. }
  destruct m as [v|v|v|]; simpl in *; [| | |by destruct Hold];
    apply fmap_is_Some in Hold; apply fmap_None in Hnew;
    (repeat split;
      [by rewrite renameEntry_old_gone
      |destruct Hold as [x Hx]; rewrite lookup_renameEntry, Hx;
       by rewrite decide_True
      |intros k Hk1 Hk2; rewrite lookup_renameEntry;
       destruct (v !! oldKey); [|done]; by rewrite !decide_False
      |by apply renameEntry_fresh_size]).
Qed.

Lemma renameKey_fresh_target_witness :
  let m := AuthInfoMap {["user" := Sample.A]} in
  entryAt (renameKey m "user" "cp1-admin") "cp1-admin"
    = Some (AuthInfoEntry Sample.A) ∧
  len (renameKey m "user" "cp1-admin") = len m.
Proof.
  intros m.
  destruct (renameKey_fresh_target m "user" "cp1-admin")
    as (_ & Hnew & _ & Hlen).
  - subst m. simpl. rewrite lookup_singleton_eq. by eexists.
  - reflexivity.
  - split; [|exact Hlen]. rewrite Hnew. subst m. simpl.
    by rewrite lookup_singleton_eq.
Defined.

(** X4.  Renaming to a key that the map does not have and renaming back
    gives the map one started with. *)
Theorem renameKey_round_trip (m : MapValue) (oldKey newKey : string) :
  entryAt m newKey = None →
  renameKey (renameKey m oldKey newKey) newKey oldKey = m.
Proof.
  intros Hnew.
  destruct m as [v|v|v|]; simpl in *; [| | |done];
    apply fmap_None in Hnew; by rewrite renameEntry_round_trip.
Qed.

Lemma renameKey_round_trip_witness :
  renameKey (renameKey (AuthInfoMap {["user" := Sample.A]}) "user" "cp1-admin")
    "cp1-admin" "user" = AuthInfoMap {["user" := Sample.A]}.
Proof.
  apply renameKey_round_trip. reflexivity.
Defined.

(** X5.  [renameKey] never makes a map larger. *)
Theorem renameKey_len_le (m : MapValue) (oldKey newKey : string) :
  len (renameKey m oldKey newKey) ≤ len m.
Proof.
  destruct m as [v|v|v|]; simpl; [| | |done]; apply renameEntry_size_le.
Qed.

(** ** adjustConfigKeys: what is kept and what the new context refers to *)

Section KeyRemapperMore.
Context `{Tenancy, Certs}.
Implicit Types (config : Config) (cpName controlPlaneType : string).

(** The cluster that the generated context names, in the remapped
    document: the one that was under the generic key, or else whatever the
    input had under the generated name. *)
Lemma lookup_generated_cluster config cpName controlPlaneType :
  knownType controlPlaneType →
  Clusters (adjustConfigKeys config cpName controlPlaneType)
    !! GenerateClusterName cpName =
  match Clusters config !! genericClusterKey controlPlaneType with
  | Some c => Some c
  | None => Clusters config !! GenerateClusterName cpName
  end.
Proof.
  intros Hknown.
  rewrite adjustConfigKeys_known, adjustCase_unfold by done. simpl.
  rewrite lookup_renameEntry.
  destruct (Clusters config !! _); [by rewrite decide_True|done].
Qed.

Lemma lookup_generated_authInfo config cpName controlPlaneType :
  knownType controlPlaneType →
  AuthInfos (adjustConfigKeys config cpName controlPlaneType)
    !! GenerateAuthInfoAdminName cpName =
  match AuthInfos config !! genericAuthInfoKey controlPlaneType with
  | Some a => Some a
  | None => AuthInfos config !! GenerateAuthInfoAdminName cpName
  end.
Proof.
  intros Hknown.
  rewrite adjustConfigKeys_known, adjustCase_unfold by done. simpl.
  rewrite lookup_renameEntry.
  destruct (AuthInfos config !! _); [by rewrite decide_True|done].
Qed.

Lemma current_context_generated config cpName controlPlaneType :
  knownType controlPlaneType →
  Contexts (adjustConfigKeys config cpName controlPlaneType)
    !! CurrentContext (adjustConfigKeys config cpName controlPlaneType)
  = Some (generatedContext cpName).
Proof.
  intros Hknown. rewrite <-(lookup_generated_context config cpName
    controlPlaneType Hknown). f_equal.
  by rewrite adjustConfigKeys_known, adjustCase_unfold.
Qed.

(** X6.  For a known control-plane type, an entry whose key is neither the
    generic key nor the generated key of its mapping is the same before and
    after [adjustConfigKeys], in each of the three mappings. *)
Theorem adjustConfigKeys_keeps_foreign_entries config cpName controlPlaneType
    (k : string) :
  knownType controlPlaneType →
  let out := adjustConfigKeys config cpName controlPlaneType in
  (k ≠ genericClusterKey controlPlaneType → k ≠ GenerateClusterName cpName →
     Clusters out !! k = Clusters config !! k) ∧
  (k ≠ genericAuthInfoKey controlPlaneType →
   k ≠ GenerateAuthInfoAdminName cpName →
     AuthInfos out !! k = AuthInfos config !! k) ∧
  (k ≠ genericContextKey controlPlaneType → k ≠ GenerateContextName cpName →
     Contexts out !! k = Contexts config !! k).
Proof.
  intros Hknown out. subst out.
  rewrite adjustConfigKeys_known, adjustCase_unfold by done. simpl.
  repeat split; intros Hk1 Hk2;
    rewrite ?lookup_insert_ne by done; rewrite lookup_renameEntry;
    (match goal with |- match ?o with _ => _ end = _ => destruct o end);
    [|done| |done| |done]; by rewrite !decide_False.
Qed.

(** X7.  For a known control-plane type and a document that has the
    generic cluster key and the generic auth-identity key, the current
    context of the remapped document is in its contexts, and the cluster
    and the auth identity that it names are in the document: they are the
    ones that were under the generic keys. *)
Theorem adjustConfigKeys_context_resolves config cpName controlPlaneType
    (c : Cluster) (a : AuthInfo) :
  knownType controlPlaneType →
  Clusters config !! genericClusterKey controlPlaneType = Some c →
  AuthInfos config !! genericAuthInfoKey controlPlaneType = Some a →
  let out := adjustConfigKeys config cpName controlPlaneType in
  ∃ ctx, Contexts out !! CurrentContext out = Some ctx ∧
         Clusters out !! Context_Cluster ctx = Some c ∧
         AuthInfos out !! Context_AuthInfo ctx = Some a.
Proof.
  intros Hknown Hc Ha out. subst out.
  exists (generatedContext cpName).
  split; [by apply current_context_generated|]. simpl.
  rewrite lookup_generated_cluster, lookup_generated_authInfo by done.
  by rewrite Hc, Ha.
Qed.

(** X8.  [adjustConfigKeys] does not check that the cluster exists: for a
    known control-plane type and a document that has a cluster neither
    under the generic key nor under the generated name, the current context
    of the remapped document names a cluster that the document does not
    have; the same for the auth identity. *)
Theorem adjustConfigKeys_dangling_context config cpName controlPlaneType :
  knownType controlPlaneType →
  let out := adjustConfigKeys config cpName controlPlaneType in
  ∃ ctx, Contexts out !! CurrentContext out = Some ctx ∧
    (Clusters config !! genericClusterKey controlPlaneType = None →
     Clusters config !! GenerateClusterName cpName = None →
     Clusters out !! Context_Cluster ctx = None) ∧
    (AuthInfos config !! genericAuthInfoKey controlPlaneType = None →
     AuthInfos config !! GenerateAuthInfoAdminName cpName = None →
     AuthInfos out !! Context_AuthInfo ctx = None).
Proof.
  intros Hknown out. subst out.
  exists (generatedContext cpName).
  split; [by apply current_context_generated|]. simpl.
  rewrite lookup_generated_cluster, lookup_generated_authInfo by done.
  split; intros Hgeneric Hgenerated; by rewrite Hgeneric.
Qed.

End KeyRemapperMore.

Section KeyRemapperMoreSamples.
Import Sample.

Lemma adjustConfigKeys_keeps_foreign_entries_witness :
  Clusters (adjustConfigKeys
              (set_Clusters (<["cp0-cluster" := C]> (Clusters vclusterDoc))
                 vclusterDoc) "cp1" "vcluster") !! "cp0-cluster"
  = Some C.
Proof.
  destruct (adjustConfigKeys_keeps_foreign_entries (H := tenancy) (H0 := certs)
    (set_Clusters (<["cp0-cluster" := C]> (Clusters vclusterDoc)) vclusterDoc)
    "cp1" "vcluster" "cp0-cluster") as (Hc & _).
  - right. reflexivity.
  - rewrite Hc by discriminate. reflexivity.
Defined.

Lemma adjustConfigKeys_context_resolves_witness :
  let out := adjustConfigKeys vclusterDoc "cp1" "vcluster" in
  ∃ ctx, Contexts out !! CurrentContext out = Some ctx ∧
         Clusters out !! Context_Cluster ctx = Some C ∧
         AuthInfos out !! Context_AuthInfo ctx = Some A.
Proof.
  apply (adjustConfigKeys_context_resolves (H := tenancy) (H0 := certs));
    [right|..]; reflexivity.
Defined.

Lemma adjustConfigKeys_dangling_context_witness :
  let out := adjustConfigKeys NewConfig "cp1" "vcluster" in
  ∃ ctx, Contexts out !! CurrentContext out = Some ctx ∧
         Clusters out !! Context_Cluster ctx = None ∧
         AuthInfos out !! Context_AuthInfo ctx = None.
Proof.
  destruct (adjustConfigKeys_dangling_context (H := tenancy) (H0 := certs)
              NewConfig "cp1" "vcluster") as (ctx & Hctx & Hc & Ha).
  - right. reflexivity.
  - exists ctx. split; [exact Hctx|]. split; [apply Hc|apply Ha]; reflexivity.
Defined.

End KeyRemapperMoreSamples.

(** ** WatchForSecretCreation: the outcome by the number of matching events *)

Section ReadinessWaiterMore.
Import ReadinessWaiter.
Implicit Types (secretName : string) (events : list Secret).

Lemma deliver_by_count secretName events stopCh :
  deliver secretName events stopCh =
  match stopCh,
        length (filter (λ secret, Name secret = secretName) events) with
  | Open, 0 => Some Open
  | Open, 1 => Some Closed
  | Closed, 0 => Some Closed
  | _, _ => None
  end.
Proof.
  revert stopCh. induction events as [|secret events IH]; intros stopCh.
  - by destruct stopCh.
  - simpl. unfold AddFunc. rewrite filter_cons.
    destruct (decide (Name secret = secretName)) as [Heq|Hne].
    + destruct stopCh; simpl; [|done]. rewrite IH.
      by destruct (length _).
    + apply IH.
Qed.

(** X9.  What [WatchForSecretCreation] has done after the informer has
    handled a list of creation events depends only on how many of them have
    the awaited name: none, it is still blocked; one, it has returned; two
    or more, [stopCh] has been closed a second time. *)
Theorem WatchForSecretCreation_by_count secretName events :
  WatchForSecretCreation secretName events =
  match length (filter (λ secret, Name secret = secretName) events) with
  | 0 => Some false
  | 1 => Some true
  | _ => None
  end.
Proof.
  unfold WatchForSecretCreation. rewrite deliver_by_count.
  by destruct (length _) as [|[|n]].
Qed.

End ReadinessWaiterMore.

(** ** loadControlPlaneKubeconfig, LoadAndMerge and LoadAndMergeNoWrite *)

Section LoadAndMergeMore.
Context `{Tenancy, Certs, Util, Clientcmd}.
Variable merge : Config → Config → Config * option error.
Implicit Types (client : Clientset) (name controlPlaneType : string)
  (w : World) (e : error) (konfig : Config).

Lemma loadControlPlaneKubeconfig_files client name controlPlaneType w :
  files (loadControlPlaneKubeconfig client name controlPlaneType w).2
  = files w.
Proof.
  rewrite loadControlPlaneKubeconfig_run.
  by destruct (Secrets_Get _ _ _).
Qed.

(** A call that is not in an explicit list of calls. *)
Ltac not_among :=
  let Hin := fresh "Hin" in
  intros Hin;
  repeat (apply elem_of_cons in Hin as [Hin|Hin]; [discriminate Hin|]);
  by apply elem_of_nil in Hin.

(** X10.  When the fetched bundle has a payload under the key chosen for
    the control-plane type, [loadControlPlaneKubeconfig] returns what the
    decoder returns for exactly that payload; it makes the fetch and the
    decoding and no other call, and leaves the files alone. *)
Theorem loadControlPlaneKubeconfig_present_key client name controlPlaneType
    (ks : Secret) (data : list Byte.byte) w :
  Secrets_Get client (GenerateNamespaceFromControlPlaneName name)
    (GetKubeconfSecretNameByControlPlaneType controlPlaneType) = Ok ks →
  Data ks !! GetKubeconfSecretKeyNameByControlPlaneType controlPlaneType
    = Some data →
  loadControlPlaneKubeconfig client name controlPlaneType w =
  (Load data,
   {| files := files w;
      calls := calls w ++
        [EvGetSecret (GenerateNamespaceFromControlPlaneName name)
           (GetKubeconfSecretNameByControlPlaneType controlPlaneType);
         EvLoad data] |}).
Proof.
  intros Hfetch Hkey.
  rewrite loadControlPlaneKubeconfig_run, Hfetch, Hkey. simpl.
  unfold logCall. simpl. by rewrite <-app_assoc.
Qed.

(** X11.  When the bundle of the control plane cannot be fetched or
    decoded, [LoadAndMerge] returns that error and does nothing more: the
    kubeconfig file is not read, nothing is merged and nothing is
    written. *)
Theorem LoadAndMerge_stops_at_bundle_failure client name controlPlaneType w e :
  (loadControlPlaneKubeconfig client name controlPlaneType w).1 = Err e →
  LoadAndMerge merge client name controlPlaneType w =
  (Err e, (loadControlPlaneKubeconfig client name controlPlaneType w).2).
Proof.
  intros Hload. unfold LoadAndMerge, bind.
  destruct (loadControlPlaneKubeconfig _ _ _ _) as [[cpKonfig|e'] w'];
    simpl in *; congruence.
Qed.

(** X12.  [LoadAndMerge] reports success only when the file was written:
    if it returns no error, then the last call it made is the write of the
    kubeconfig file, the write returned no error, and the files are the
    ones the write left. *)
Theorem LoadAndMerge_success_means_written client name controlPlaneType w :
  (LoadAndMerge merge client name controlPlaneType w).1 = Ok () →
  ∃ konfig pre,
    (WriteToFile konfig GetDefaultFilename (files w)).1 = None ∧
    files (LoadAndMerge merge client name controlPlaneType w).2
      = (WriteToFile konfig GetDefaultFilename (files w)).2 ∧
    calls (LoadAndMerge merge client name controlPlaneType w).2
      = calls w ++ pre ++ [EvWriteToFile GetDefaultFilename] ∧
    ∀ filename, EvWriteToFile filename ∉ pre.
Proof.
  unfold LoadAndMerge, bind.
  rewrite loadControlPlaneKubeconfig_run.
  destruct (Secrets_Get _ _ _) as [ks|e]; [|done].
  destruct (Load _) as [cpKonfig|e]; [|done].
  unfold LoadKubeconfig, loadFromFile, mergeM, WriteKubeconfig, writeToFile,
    logCall. simpl.
  destruct (LoadFromFile _ _) as [konfig|e]; [|done].
  destruct (merge _ _) as [konfig' [e|]]; [done|]. simpl.
  destruct (WriteToFile konfig' _ _) as [[e|] fs] eqn:Hwrite; [done|].
  intros _. exists konfig'.
  exists [EvGetSecret (GenerateNamespaceFromControlPlaneName name)
            (GetKubeconfSecretNameByControlPlaneType controlPlaneType);
          EvLoad (default [] (Data ks !!
            GetKubeconfSecretKeyNameByControlPlaneType controlPlaneType));
          EvLoadFromFile GetDefaultFilename; EvMerge].
  rewrite Hwrite. simpl.
  split; [done|]. split; [done|]. split.
  - by rewrite <-!app_assoc.
  - intros filename. not_among.
Qed.

(** X13.  [LoadAndMergeNoWrite] does not touch the kubeconfig file: for
    every input the files are unchanged, and none of the calls it makes
    reads or writes a file. *)
Theorem LoadAndMergeNoWrite_no_file_access client name controlPlaneType
    konfig w :
  ∃ evs,
    (LoadAndMergeNoWrite merge client name controlPlaneType konfig w).2
      = {| files := files w; calls := calls w ++ evs |} ∧
    ∀ filename,
      (EvLoadFromFile filename ∉ evs) ∧ (EvWriteToFile filename ∉ evs).
Proof.
  rewrite LoadAndMergeNoWrite_run, loadControlPlaneKubeconfig_run.
  destruct (Secrets_Get _ _ _) as [ks|e]; [destruct (Load _) as [cp|e]|];
    unfold logCall; simpl; rewrite <-?app_assoc; simpl;
    (eexists; split; [reflexivity|]); intros filename; split; not_among.
Qed.

(** X14.  When the bundle of the control plane cannot be fetched or
    decoded, [LoadAndMergeNoWrite] returns that error, the caller's
    document is as it was, and the merge routine is not called. *)
Theorem LoadAndMergeNoWrite_bundle_failure client name controlPlaneType
    konfig w e :
  (loadControlPlaneKubeconfig client name controlPlaneType w).1 = Err e →
  LoadAndMergeNoWrite merge client name controlPlaneType konfig w =
  ((konfig, Some e),
   (loadControlPlaneKubeconfig client name controlPlaneType w).2).
Proof.
  intros Hload. rewrite LoadAndMergeNoWrite_run.
  destruct (loadControlPlaneKubeconfig _ _ _ _) as [[cpKonfig|e'] w'];
    simpl in *; congruence.
Qed.

(** X15.  [LoadAndMerge] writes what [LoadAndMergeNoWrite] computes: when
    the kubeconfig file holds [konfig], and [LoadAndMergeNoWrite] on
    [konfig] ends with the document [konfig'] and no error, [LoadAndMerge]
    writes [konfig'] and returns the outcome of the write; when
    [LoadAndMergeNoWrite] ends with an error, [LoadAndMerge] returns that
    error and leaves the files as they were. *)
Theorem LoadAndMerge_writes_what_NoWrite_computes client name controlPlaneType
    konfig w :
  LoadFromFile GetDefaultFilename (files w) = Ok konfig →
  match (LoadAndMergeNoWrite merge client name controlPlaneType konfig w).1
  with
  | (konfig', None) =>
      (LoadAndMerge merge client name controlPlaneType w).1 =
        match (WriteToFile konfig' GetDefaultFilename (files w)).1 with
        | Some e => Err e
        | None => Ok ()
        end ∧
      files (LoadAndMerge merge client name controlPlaneType w).2
        = (WriteToFile konfig' GetDefaultFilename (files w)).2
  | (_, Some e) =>
      (LoadAndMerge merge client name controlPlaneType w).1 = Err e ∧
      files (LoadAndMerge merge client name controlPlaneType w).2 = files w
  end.
Proof.
  intros Hfile. rewrite LoadAndMergeNoWrite_run.
  unfold LoadAndMerge, bind. rewrite loadControlPlaneKubeconfig_run.
  destruct (Secrets_Get _ _ _) as [ks|e]; [|done].
  destruct (Load _) as [cpKonfig|e]; [|done].
  unfold LoadKubeconfig, loadFromFile, mergeM, WriteKubeconfig, writeToFile,
    logCall. simpl. rewrite Hfile.
  destruct (merge _ _) as [konfig' [e|]]; [done|]. simpl.
  by destruct (WriteToFile konfig' _ _) as [[e|] fs].
Qed.

End LoadAndMergeMore.

Section LoadAndMergeMoreSamples.
Import Sample SampleBundle.

Lemma loadControlPlaneKubeconfig_present_key_witness :
  (loadControlPlaneKubeconfig keyedStore "cp1" "vcluster" world0).1
  = Err DecodeError.
Proof.
  rewrite (loadControlPlaneKubeconfig_present_key (H1 := util)
             (H2 := clientcmd) keyedStore "cp1" "vcluster" keyedSecret
             payloadBytes world0); reflexivity.
Defined.

Lemma LoadAndMerge_stops_at_bundle_failure_witness :
  LoadAndMerge CredentialMerger.merge emptyStore "cp1" "vcluster" world0 =
  (Err NotFoundError,
   {| files := None; calls := [EvGetSecret "cp1-system" "admin-kubeconfig"] |}).
Proof.
  rewrite (LoadAndMerge_stops_at_bundle_failure (H := tenancy) (H0 := certs)
             (H1 := util) (H2 := clientcmd) CredentialMerger.merge emptyStore
             "cp1" "vcluster" world0 NotFoundError); reflexivity.
Defined.

Lemma LoadAndMerge_success_means_written_witness :
  ∃ konfig pre,
    (WriteToFile konfig GetDefaultFilename (files worldWithFile)).1 = None ∧
    files (LoadAndMerge CredentialMerger.merge readyStore "cp1" "vcluster"
             worldWithFile).2
      = (WriteToFile konfig GetDefaultFilename (files worldWithFile)).2 ∧
    calls (LoadAndMerge CredentialMerger.merge readyStore "cp1" "vcluster"
             worldWithFile).2
      = calls worldWithFile ++ pre ++ [EvWriteToFile GetDefaultFilename] ∧
    ∀ filename, EvWriteToFile filename ∉ pre.
Proof.
  apply (LoadAndMerge_success_means_written (H := tenancy) (H0 := certs)
           (H1 := util) (H2 := clientcmd)).
  reflexivity.
Defined.

Lemma LoadAndMergeNoWrite_bundle_failure_witness :
  (LoadAndMergeNoWrite CredentialMerger.merge emptyStore "cp1" "vcluster"
     vclusterDoc world0).1 = (vclusterDoc, Some NotFoundError).
Proof.
  rewrite (LoadAndMergeNoWrite_bundle_failure (H := tenancy) (H0 := certs)
             (H1 := util) (H2 := clientcmd) CredentialMerger.merge emptyStore
             "cp1" "vcluster" vclusterDoc world0 NotFoundError); reflexivity.
Defined.

Lemma LoadAndMerge_writes_what_NoWrite_computes_witness :
  files (LoadAndMerge CredentialMerger.merge readyStore "cp1" "vcluster"
           worldWithFile).2
  = Some (LoadAndMergeNoWrite CredentialMerger.merge readyStore "cp1"
            "vcluster" NewConfig worldWithFile).1.1.
Proof.
  pose proof (LoadAndMerge_writes_what_NoWrite_computes (H := tenancy)
    (H0 := certs) (H1 := util) (H2 := clientcmd) CredentialMerger.merge
    readyStore "cp1" "vcluster" NewConfig worldWithFile eq_refl) as Hw.
  destruct (LoadAndMergeNoWrite _ _ _ _ _ _).1 as [konfig' [e|]] eqn:Hnw.
  - discriminate Hnw.
  - destruct Hw as [_ Hfiles]. rewrite Hfiles. reflexivity.
Defined.

End LoadAndMergeMoreSamples.

(** ** The vcluster reconciler *)

Section ReconcileProperties.
Import VClusterReconciler.
Context `{Steps}.
Implicit Types (hcp : ControlPlane) (w : RWorld) (cl : Cl) (e : GoError).

(** X16.  When the namespace step, the chart step or the ingress step
    fails, [Reconcile] runs no later step: the calls it makes are exactly
    the steps up to and including the failing one, followed by
    [UpdateStatusForSyncingError] with the error of that step, on the
    cluster that the failed step left; it returns what that call
    returns. *)
Theorem Reconcile_first_failure hcp w e cl1 (ran : list Call) :
  (ReconcileNamespace hcp (cluster w) = (Some e, cl1) ∧
   ran = [CallReconcileNamespace])
  ∨ (∃ cl0,
       ReconcileNamespace hcp (cluster w) = (None, cl0) ∧
       ReconcileChart hcp cl0 = (Some e, cl1) ∧
       ran = [CallReconcileNamespace; CallReconcileChart])
  ∨ (∃ cl0 cl0',
       ReconcileNamespace hcp (cluster w) = (None, cl0) ∧
       ReconcileChart hcp cl0 = (None, cl0') ∧
       ReconcileAPIServerIngress hcp ServiceName ServicePort cl0'
         = (Some e, cl1) ∧
       ran = [CallReconcileNamespace; CallReconcileChart;
              CallReconcileAPIServerIngress ServiceName ServicePort]) →
  Reconcile hcp w =
  ((UpdateStatusForSyncingError hcp e cl1).1,
   {| cluster := (UpdateStatusForSyncingError hcp e cl1).2;
      made := made w ++ ran ++ [CallUpdateStatusForSyncingError e] |}).
Proof.
  intros [(Hns & ->)|[(cl0 & Hns & Hchart & ->)
    |(cl0 & cl0' & Hns & Hchart & Hingress & ->)]];
    unfold Reconcile, step, update; simpl; rewrite Hns; simpl.
  - destruct (UpdateStatusForSyncingError hcp e cl1). simpl.
    by rewrite <-app_assoc.
  - rewrite Hchart. simpl.
    destruct (UpdateStatusForSyncingError hcp e cl1). simpl.
    by rewrite <-!app_assoc.
  - rewrite Hchart. simpl. rewrite Hingress. simpl.
    destruct (UpdateStatusForSyncingError hcp e cl1). simpl.
    by rewrite <-!app_assoc.
Qed.

(** X17.  Every [Reconcile] ends with one status update, made after the
    steps and as the last call; the success update is made only after all
    three steps have run, the ingress step for service ["vcluster"] and
    port 443. *)
Theorem Reconcile_ends_with_status_update hcp w :
  ∃ ran last,
    made (Reconcile hcp w).2 = made w ++ ran ++ [last] ∧
    ran `prefix_of`
      [CallReconcileNamespace; CallReconcileChart;
       CallReconcileAPIServerIngress "vcluster" 443] ∧
    ((last = CallUpdateStatusForSyncingSuccess ∧
      ran = [CallReconcileNamespace; CallReconcileChart;
             CallReconcileAPIServerIngress "vcluster" 443])
     ∨ (∃ e, last = CallUpdateStatusForSyncingError e)).
Proof.
  unfold Reconcile, step, update. simpl.
  destruct (ReconcileNamespace hcp (cluster w)) as [[e|] cl0]; simpl.
  { exists [CallReconcileNamespace], (CallUpdateStatusForSyncingError e).
    destruct (UpdateStatusForSyncingError hcp e cl0). simpl.
    rewrite <-app_assoc. split; [done|]. split; [by eexists|]. right. eauto. }
  destruct (ReconcileChart hcp cl0) as [[e|] cl1]; simpl.
  { exists [CallReconcileNamespace; CallReconcileChart],
      (CallUpdateStatusForSyncingError e).
    destruct (UpdateStatusForSyncingError hcp e cl1). simpl.
    rewrite <-!app_assoc. split; [done|]. split; [by eexists|]. right. eauto. }
  destruct (ReconcileAPIServerIngress hcp ServiceName ServicePort cl1)
    as [[e|] cl2]; simpl.
  { exists allSteps, (CallUpdateStatusForSyncingError e).
    destruct (UpdateStatusForSyncingError hcp e cl2). simpl.
    rewrite <-!app_assoc. split; [done|]. split; [done|]. right. eauto. }
  exists allSteps, CallUpdateStatusForSyncingSuccess.
  destruct (UpdateStatusForSyncingSuccess hcp cl2). simpl.
  rewrite <-!app_assoc. split; [done|]. split; [done|]. by left.
Qed.

(** X18.  When the three steps succeed, each on the cluster the one before
    it left, [Reconcile] calls [UpdateStatusForSyncingSuccess] on the
    cluster the ingress step left and returns what that call returns. *)
Theorem Reconcile_all_steps_succeed hcp w cl1 cl2 cl3 :
  ReconcileNamespace hcp (cluster w) = (None, cl1) →
  ReconcileChart hcp cl1 = (None, cl2) →
  ReconcileAPIServerIngress hcp ServiceName ServicePort cl2 = (None, cl3) →
  Reconcile hcp w =
  ((UpdateStatusForSyncingSuccess hcp cl3).1,
   {| cluster := (UpdateStatusForSyncingSuccess hcp cl3).2;
      made := made w ++ allSteps ++ [CallUpdateStatusForSyncingSuccess] |}).
Proof.
  intros Hns Hchart Hingress. unfold Reconcile, step, update. simpl.
  rewrite Hns. simpl. rewrite Hchart. simpl. rewrite Hingress. simpl.
  destruct (UpdateStatusForSyncingSuccess hcp cl3). simpl.
  by rewrite <-!app_assoc.
Qed.

End ReconcileProperties.

Section ReconcileSamples.
Import VClusterReconciler SampleReconciler.

Lemma Reconcile_first_failure_witness :
  Reconcile "" rworld0 =
  ((true, Some "no name"),
   {| cluster := ["status:no name"];
      made := [CallReconcileNamespace;
               CallUpdateStatusForSyncingError "no name"] |}).
Proof.
  apply (Reconcile_first_failure (H := sampleSteps) "" rworld0 "no name" []
           [CallReconcileNamespace]).
  left. split; reflexivity.
Defined.

Lemma Reconcile_all_steps_succeed_witness :
  Reconcile "cp1" rworld0 =
  ((false, None),
   {| cluster := ["cp1-system"; "chart"; "ingress:vcluster"; "status:ready"];
      made := allSteps ++ [CallUpdateStatusForSyncingSuccess] |}).
Proof.
  apply (Reconcile_all_steps_succeed (H := sampleSteps) "cp1" rworld0
           ["cp1-system"] ["cp1-system"; "chart"]
           ["cp1-system"; "chart"; "ingress:vcluster"]); reflexivity.
Defined.

End ReconcileSamples.
